(** * Wake-signal scripts of the Penta server (kreier/wob)

    Two short Python scripts connect to a BLE peripheral through bleak's
    [BleakClient], write one byte to one characteristic and exit:

    - [src/esp32c3/gemini/power_button_penta/raspberrypi.py]  (module [Raspberrypi])
    - [src/python/wake_penta.py]                               (module [WakePenta])

    The scripts are embedded as computations in a small monad of state and
    exceptions.  The BLE stack and the standard output are outside the
    repository: they are a parameter of the development (class [Platform]),
    with arbitrary state and arbitrary answers.  [run] is a script run by
    the interpreter to its end; [process_status] adds the shutdown of the
    interpreter, which flushes the standard output. *)

From Stdlib Require Import String Ascii List Bool ZArith Lia.
From Stdlib.Strings Require Import Byte.
Import ListNotations.
Set Warnings "-register-all".
Local Open Scope string_scope.
Local Open Scope list_scope.

(* ================================================================== *)
(** * Exceptions *)

(** The error taxonomy of the BLE transport, and [OSError] for a failing
    write to the standard output. *)
Inductive exn_kind : Type :=
| ConnectionError
| CharacteristicNotFoundError
| WriteError
| OSError.

(** A Python exception object: what was raised, and its [__context__], the
    exception that was being handled when this one was raised. *)
Inductive exn : Type :=
| Exn (kind : exn_kind) (context : option exn).

(** Raising [e] while [handled] is being handled sets [e.__context__]. *)
Definition with_context (e handled : exn) : exn :=
  match e with Exn k _ => Exn k (Some handled) end.

(** The kinds along the [__context__] chain, newest first: what the
    interpreter's traceback lists. *)
Fixpoint chain (e : exn) : list exn_kind :=
  match e with
  | Exn k c => k :: match c with None => [] | Some e' => chain e' end
  end.

(* ================================================================== *)
(** * The platform: BLE stack and standard output *)

(** Every operation answers [None] when it completes and [Some k] when it
    raises an error of kind [k]; either way it may change the state of its
    component.  The BLE operations are connect-by-address,
    write-characteristic-by-UUID on a connection, and disconnect.  The
    standard output is Python's [sys.stdout] with whatever is behind it:
    [stdout_write] is the write a [print] call makes, which may pass the
    line on at once (a terminal) or keep it in a buffer (a pipe or a file),
    and [stdout_flush] is the flush of that buffer when the interpreter
    shuts down. *)
Class Platform : Type := {
  BleSt : Type;
  OutSt : Type;
  ble_connect : string -> BleSt -> option exn_kind * BleSt;
  ble_write : string -> string -> list byte -> BleSt -> option exn_kind * BleSt;
  ble_disconnect : string -> BleSt -> option exn_kind * BleSt;
  stdout_write : string -> OutSt -> option exn_kind * OutSt;
  stdout_flush : OutSt -> option exn_kind * OutSt
}.

(** What an observer of the process sees, in order. *)
Inductive Event : Type :=
| EvConnect (address : string) (res : option exn_kind)
| EvWrite (address uuid : string) (payload : list byte) (res : option exn_kind)
| EvDisconnect (address : string) (res : option exn_kind)
| EvPrint (line : string) (res : option exn_kind).

Record World {P : Platform} : Type := mkWorld {
  ble : BleSt;
  out : OutSt;
  trace : list Event
}.

(* ================================================================== *)
(** * The monad of the scripts *)

Inductive outcome (A : Type) : Type :=
| Ret (a : A)
| Raise (e : exn).
Arguments Ret {A} a.
Arguments Raise {A} e.

(** A coroutine run to completion: it returns or raises, and the world keeps
    whatever happened before the exception. *)
Definition M {P : Platform} (A : Type) : Type := World -> outcome A * World.

Definition ret {P : Platform} {A} (a : A) : M A := fun w => (Ret a, w).

Definition bind {P : Platform} {A B} (c : M A) (k : A -> M B) : M B :=
  fun w =>
    match c w with
    | (Ret a, w') => k a w'
    | (Raise e, w') => (Raise e, w')
    end.

Declare Scope script_scope.
Delimit Scope script_scope with script.
Notation "x <- c ;; k" := (bind c (fun x => k))
  (at level 100, c at next level, right associativity) : script_scope.
Notation "c ;; k" := (bind c (fun _ => k))
  (at level 100, right associativity) : script_scope.
Local Open Scope script_scope.

(** An operation of the BLE stack, run on the world and logged. *)
Definition ble_call {P : Platform}
    (op : BleSt -> option exn_kind * BleSt)
    (ev : option exn_kind -> Event) : M unit :=
  fun w =>
    let (r, s) := op (ble w) in
    let w' := mkWorld P s (out w) (trace w ++ [ev r]) in
    match r with
    | None => (Ret tt, w')
    | Some k => (Raise (Exn k None), w')
    end.

(** [print(line)]. *)
Definition print {P : Platform} (line : string) : M unit :=
  fun w =>
    let (r, o) := stdout_write line (out w) in
    let w' := mkWorld P (ble w) o (trace w ++ [EvPrint line r]) in
    match r with
    | None => (Ret tt, w')
    | Some k => (Raise (Exn k None), w')
    end.

(* ================================================================== *)
(** * bleak's client *)

(** Modelled from the spec: bleak is not part of the repository.  Its
    [BleakClient] is the scoped connection of the spec (section 4.1):
    entering it connects to the address it was built with, leaving it
    disconnects, and [write_gatt_char] writes a payload to a characteristic
    over it.  The constructor only records the address. *)
Record Client : Type := { client_address : string }.

Definition BleakClient (address : string) : Client :=
  {| client_address := address |}.

Definition connect {P : Platform} (c : Client) : M unit :=
  ble_call (ble_connect (client_address c)) (EvConnect (client_address c)).

Definition disconnect {P : Platform} (c : Client) : M unit :=
  ble_call (ble_disconnect (client_address c)) (EvDisconnect (client_address c)).

Definition write_gatt_char {P : Platform} (c : Client) (char_specifier : string)
    (data : list byte) : M unit :=
  ble_call (ble_write (client_address c) char_specifier data)
           (EvWrite (client_address c) char_specifier data).

(** [__aenter__]: connect, then hand the client to the body. *)
Definition aenter {P : Platform} (c : Client) : M Client :=
  connect c ;; ret c.

(** [__aexit__]: disconnect; it returns [None], so an exception of the body
    is never swallowed. *)
Definition aexit {P : Platform} (c : Client) : M unit :=
  disconnect c.

(** Python's [async with mgr as x: body].  When [__aenter__] raises, the
    body does not run and [__aexit__] is not called.  Otherwise [__aexit__]
    runs after the body, however the body ended; an exception of the body is
    raised again after it, unless [__aexit__] raises itself, and then that
    exception carries the body's as its context. *)
Definition async_with {P : Platform} {A} (mgr : Client) (body : Client -> M A) : M A :=
  fun w =>
    match aenter mgr w with
    | (Raise e, w1) => (Raise e, w1)
    | (Ret x, w1) =>
        match body x w1 with
        | (Ret a, w2) =>
            match aexit mgr w2 with
            | (Ret _, w3) => (Ret a, w3)
            | (Raise e', w3) => (Raise e', w3)
            end
        | (Raise e, w2) =>
            match aexit mgr w2 with
            | (Ret _, w3) => (Raise e, w3)
            | (Raise e', w3) => (Raise (with_context e' e), w3)
            end
        end
    end.

(* ================================================================== *)
(** * The interpreter around a script *)

(** How the run of a script ended: the exception nobody caught, if any, and
    the exit status the interpreter holds at that point.  The shutdown that
    follows can still replace that status, see [interpreter_exit]. *)
Record ProcessExit : Type := {
  exit_status : Z;
  traceback : option exn
}.

(** [asyncio.run(coro)] as the last statement of a script: the coroutine
    runs to completion; an exception that leaves it is caught by nobody, the
    interpreter reports it and its status is 1.  Otherwise the script ends
    and the status is 0. *)
Definition asyncio_run {P : Platform} (coro : M unit) (w : World)
  : ProcessExit * World :=
  match coro w with
  | (Ret _, w') => ({| exit_status := 0; traceback := None |}, w')
  | (Raise e, w') => ({| exit_status := 1; traceback := Some e |}, w')
  end.

(** A fresh process: nothing of the program survives from an earlier run;
    only the platform has a state of its own. *)
Definition boot {P : Platform} (s : BleSt) (o : OutSt) : World :=
  mkWorld P s o [].

(* ================================================================== *)
(** * The two scripts *)

(** [src/esp32c3/gemini/power_button_penta/raspberrypi.py] *)
Module Raspberrypi.

Definition address : string := "XX:XX:XX:XX:XX:XX".
Definition CHAR_UUID : string := "0000ff01-0000-1000-8000-00805f9b34fb".

Definition main {P : Platform} : M unit :=
  async_with (BleakClient address) (fun client =>
    write_gatt_char client CHAR_UUID [x01] ;;
    print "Wake signal sent to Penta server.").

Definition script {P : Platform} (s : BleSt) (o : OutSt) : ProcessExit * World :=
  asyncio_run main (boot s o).

End Raspberrypi.

(** [src/python/wake_penta.py] *)
Module WakePenta.

Definition DEVICE_ADDRESS : string := "XX:XX:XX:XX:XX:XX".
Definition CHAR_UUID : string := "your-characteristic-uuid".

Definition wake {P : Platform} : M unit :=
  async_with (BleakClient DEVICE_ADDRESS) (fun client =>
    write_gatt_char client CHAR_UUID [x01]).

Definition script {P : Platform} (s : BleSt) (o : OutSt) : ProcessExit * World :=
  asyncio_run wake (boot s o).

End WakePenta.

(* ================================================================== *)
(** * Observations on a trace *)

Definition is_connect (ev : Event) : bool :=
  match ev with EvConnect _ _ => true | _ => false end.
Definition is_write (ev : Event) : bool :=
  match ev with EvWrite _ _ _ _ => true | _ => false end.
Definition is_disconnect (ev : Event) : bool :=
  match ev with EvDisconnect _ _ => true | _ => false end.
Definition is_print (ev : Event) : bool :=
  match ev with EvPrint _ _ => true | _ => false end.

(** The connect attempts, the writes and the BLE traffic as a whole. *)
Definition connects (tr : list Event) : list Event := filter is_connect tr.
Definition writes (tr : list Event) : list Event := filter is_write tr.
Definition ble_events (tr : list Event) : list Event :=
  filter (fun ev => negb (is_print ev)) tr.

(** Every payload handed to the BLE stack, with the characteristic it was
    written to. *)
Fixpoint payloads (tr : list Event) : list (string * list byte) :=
  match tr with
  | [] => []
  | EvWrite _ u p _ :: tr' => (u, p) :: payloads tr'
  | _ :: tr' => payloads tr'
  end.

(** The lines that reached the standard output. *)
Fixpoint stdout_lines (tr : list Event) : list string :=
  match tr with
  | [] => []
  | EvPrint l None :: tr' => l :: stdout_lines tr'
  | _ :: tr' => stdout_lines tr'
  end.

(** Connection handles: a connect that completes acquires the handle of its
    address, a disconnect that completes gives it back.  A refused connect
    acquires nothing, and after a disconnect that raised the handle is still
    held. *)
Fixpoint release (a : string) (held : list string) : list string :=
  match held with
  | [] => []
  | b :: held' => if String.eqb a b then held' else b :: release a held'
  end.

Fixpoint handles_after (held : list string) (tr : list Event) : list string :=
  match tr with
  | [] => held
  | EvConnect a None :: tr' => handles_after (a :: held) tr'
  | EvDisconnect a None :: tr' => handles_after (release a held) tr'
  | _ :: tr' => handles_after held tr'
  end.

Definition open_handles (tr : list Event) : list string := handles_after [] tr.

(** How a step ended: [None] when it completed, [Some k] when it raised. *)
Definition event_result (ev : Event) : option exn_kind :=
  match ev with
  | EvConnect _ r => r
  | EvWrite _ _ _ r => r
  | EvDisconnect _ r => r
  | EvPrint _ r => r
  end.

(** The BLE traffic with the configured constants forgotten: which
    operation, which payload, which answer. *)
Inductive BleOp : Type :=
| OpConnect (res : option exn_kind)
| OpWrite (payload : list byte) (res : option exn_kind)
| OpDisconnect (res : option exn_kind).

Fixpoint ble_view (tr : list Event) : list BleOp :=
  match tr with
  | [] => []
  | EvConnect _ r :: tr' => OpConnect r :: ble_view tr'
  | EvWrite _ _ p r :: tr' => OpWrite p r :: ble_view tr'
  | EvDisconnect _ r :: tr' => OpDisconnect r :: ble_view tr'
  | EvPrint _ _ :: tr' => ble_view tr'
  end.

(** No line is printed unless a write has completed before it. *)
Definition output_follows_write (tr : list Event) : Prop :=
  forall pre l r post,
    tr = pre ++ EvPrint l r :: post ->
    exists a u p, In (EvWrite a u p None) pre.

(** The linear sequence of one invocation: one connection opened, one write
    on it, the connection closed, and no other BLE traffic. *)
Definition linear_sequence (a u : string) (p : list byte) (tr : list Event) : Prop :=
  exists rw rd,
    ble_events tr = [EvConnect a None; EvWrite a u p rw; EvDisconnect a rd].

(** The sequence cut short: the connection was refused and nothing else
    happened. *)
Definition connection_refused (a : string) (tr : list Event) : Prop :=
  exists k, tr = [EvConnect a (Some k)].

(* ================================================================== *)
(** * The scripts side by side *)

Inductive Script : Type :=
| raspberrypi_py
| wake_penta_py.

Definition address_of (sc : Script) : string :=
  match sc with
  | raspberrypi_py => Raspberrypi.address
  | wake_penta_py => WakePenta.DEVICE_ADDRESS
  end.

Definition characteristic_of (sc : Script) : string :=
  match sc with
  | raspberrypi_py => Raspberrypi.CHAR_UUID
  | wake_penta_py => WakePenta.CHAR_UUID
  end.

(** One invocation of a script, as a process of its own. *)
Definition run {P : Platform} (sc : Script) (s : BleSt) (o : OutSt)
  : ProcessExit * World :=
  match sc with
  | raspberrypi_py => Raspberrypi.script s o
  | wake_penta_py => WakePenta.script s o
  end.

(** Two invocations in succession: the second process starts afresh on the
    platform as the first one left it. *)
Definition run_twice {P : Platform} (sc : Script) (s : BleSt) (o : OutSt)
  : (ProcessExit * World) * (ProcessExit * World) :=
  let first := run sc s o in
  let second := run sc (ble (snd first)) (out (snd first)) in
  (first, second).

(** The interpreter shuts down after the script has run.  It flushes the
    standard output; when that flush fails, the exit status becomes 120
    whatever it was.  A script that has printed nothing has nothing in the
    buffer, and the flush does nothing. *)
Definition interpreter_exit {P : Platform} (r : ProcessExit * World)
  : Z * World :=
  match filter is_print (trace (snd r)) with
  | [] => (exit_status (fst r), snd r)
  | _ :: _ =>
      let (rf, o') := stdout_flush (out (snd r)) in
      (match rf with
       | None => exit_status (fst r)
       | Some _ => 120%Z
       end,
       mkWorld P (ble (snd r)) o' (trace (snd r)))
  end.

(** The exit status of the process of one invocation. *)
Definition process_status {P : Platform} (sc : Script) (s : BleSt) (o : OutSt) : Z :=
  fst (interpreter_exit (run sc s o)).

(** The peripheral is reachable and exposes the characteristic as writable,
    whatever state the platform is in. *)
Record reachable_peripheral {P : Platform} (sc : Script) : Prop := {
  connect_ok : forall s, fst (ble_connect (address_of sc) s) = None;
  write_ok : forall s,
    fst (ble_write (address_of sc) (characteristic_of sc) [x01] s) = None;
  disconnect_ok : forall s, fst (ble_disconnect (address_of sc) s) = None
}.

(** The standard output takes every line it is given. *)
Definition stdout_accepts {P : Platform} : Prop :=
  forall l o, fst (stdout_write l o) = None.

(** The platform does not tell the constants of one script from those of
    the other. *)
Record same_on_both_constants {P : Platform} : Prop := {
  same_connect : forall s,
    ble_connect Raspberrypi.address s = ble_connect WakePenta.DEVICE_ADDRESS s;
  same_write : forall p s,
    ble_write Raspberrypi.address Raspberrypi.CHAR_UUID p s
    = ble_write WakePenta.DEVICE_ADDRESS WakePenta.CHAR_UUID p s;
  same_disconnect : forall s,
    ble_disconnect Raspberrypi.address s
    = ble_disconnect WakePenta.DEVICE_ADDRESS s
}.

(* ================================================================== *)
(** * Characteristic identifiers *)

Definition is_hex_digit (c : ascii) : bool :=
  let n := nat_of_ascii c in
  (((48 <=? n) && (n <=? 57)) || ((97 <=? n) && (n <=? 102))
   || ((65 <=? n) && (n <=? 70)))%nat.

Fixpoint all_hex (s : string) : bool :=
  match s with
  | EmptyString => true
  | String c s' => is_hex_digit c && all_hex s'
  end.

Definition is_hyphen_position (i : nat) : bool :=
  ((i =? 8) || (i =? 13) || (i =? 18) || (i =? 23))%nat.

(** From position [i] on: a hyphen where the textual form 8-4-4-4-12 has
    one, a hexadecimal digit everywhere else. *)
Fixpoint uuid_chars (i : nat) (s : string) : bool :=
  match s with
  | EmptyString => true
  | String c s' =>
      (if is_hyphen_position i then Ascii.eqb c "-" else is_hex_digit c)
      && uuid_chars (S i) s'
  end.

(** The 128 bits written as 32 hexadecimal digits in groups 8-4-4-4-12. *)
Definition is_uuid128 (s : string) : bool :=
  (String.length s =? 36)%nat && uuid_chars 0 s.

(** The short forms: a 16-bit or 32-bit UUID as 4 or 8 hexadecimal digits. *)
Definition is_short_uuid (s : string) : bool :=
  ((String.length s =? 4) || (String.length s =? 8))%nat && all_hex s.

(** Modelled from the spec: the syntax check belongs to the BLE stack, which
    is not part of the repository.  A CharacteristicIdentifier is "a 128-bit
    UUID (or platform-specific short form)" (section 3). *)
Definition valid_characteristic_identifier (s : string) : bool :=
  is_uuid128 s || is_short_uuid s.

(** Whatever the form, an identifier is written with hexadecimal digits and
    hyphens only. *)
Fixpoint hex_or_hyphen (s : string) : bool :=
  match s with
  | EmptyString => true
  | String c s' => (is_hex_digit c || Ascii.eqb c "-") && hex_or_hyphen s'
  end.

(* ================================================================== *)
(** * Some platforms *)

(** The peripheral is powered off: no connection can be established. *)
Definition powered_off : Platform := {|
  BleSt := unit;
  OutSt := unit;
  ble_connect := fun _ s => (Some ConnectionError, s);
  ble_write := fun _ _ _ s => (Some WriteError, s);
  ble_disconnect := fun _ s => (None, s);
  stdout_write := fun _ o => (None, o);
  stdout_flush := fun o => (None, o)
|}.

(** The peripheral is there and takes every write to every characteristic.
    Its state counts the writes it has received; the standard output keeps
    its lines. *)
Definition reachable : Platform := {|
  BleSt := nat;
  OutSt := list string;
  ble_connect := fun _ n => (None, n);
  ble_write := fun _ _ _ n => (None, S n);
  ble_disconnect := fun _ n => (None, n);
  stdout_write := fun l o => (None, o ++ [l]);
  stdout_flush := fun o => (None, o)
|}.

(** The link drops while the write is under way, and the disconnect that
    follows fails as well. *)
Definition link_drops : Platform := {|
  BleSt := unit;
  OutSt := unit;
  ble_connect := fun _ s => (None, s);
  ble_write := fun _ _ _ s => (Some WriteError, s);
  ble_disconnect := fun _ s => (Some ConnectionError, s);
  stdout_write := fun _ o => (None, o);
  stdout_flush := fun o => (None, o)
|}.

(** A platform without a memory, which gives each operation the answer it
    was set up with: connect, write, disconnect, standard output. *)
Definition scripted (rc rw rd rp : option exn_kind) : Platform := {|
  BleSt := unit;
  OutSt := unit;
  ble_connect := fun _ s => (rc, s);
  ble_write := fun _ _ _ s => (rw, s);
  ble_disconnect := fun _ s => (rd, s);
  stdout_write := fun _ o => (rp, o);
  stdout_flush := fun o => (None, o)
|}.

(** The peripheral is there, and the standard output is a pipe whose reader
    has gone: a printed line stays in the buffer, and the flush at shutdown
    fails when there is something to flush. *)
Definition broken_pipe : Platform := {|
  BleSt := unit;
  OutSt := list string;
  ble_connect := fun _ s => (None, s);
  ble_write := fun _ _ _ s => (None, s);
  ble_disconnect := fun _ s => (None, s);
  stdout_write := fun l o => (None, o ++ [l]);
  stdout_flush := fun o =>
    match o with
    | [] => (None, [])
    | _ :: _ => (Some OSError, [])
    end
|}.

(* ================================================================== *)
(** * Errors of a run and what is reported of them *)

(** The errors raised during a run, oldest first. *)
Fixpoint errors (tr : list Event) : list exn_kind :=
  match tr with
  | [] => []
  | ev :: tr' =>
      match event_result ev with
      | Some k => k :: errors tr'
      | None => errors tr'
      end
  end.

(** The errors the interpreter's report shows, newest first; none when the
    process ends normally. *)
Definition reported (pe : ProcessExit) : list exn_kind :=
  match traceback pe with
  | None => []
  | Some e => chain e
  end.

(** The BLE traffic of an invocation in which every step completed. *)
Definition delivered_sequence (sc : Script) : list Event :=
  [EvConnect (address_of sc) None;
   EvWrite (address_of sc) (characteristic_of sc) [x01] None;
   EvDisconnect (address_of sc) None].


(* ================================================================== *)
(** * Running the scripts *)

(** Unfold a script down to the answers of the platform, then split on
    each answer in turn. *)
Ltac unfold_script :=
  cbv beta iota zeta delta
    [run run_twice Raspberrypi.script Raspberrypi.main WakePenta.script
     WakePenta.wake asyncio_run boot async_with aenter aexit connect disconnect
     write_gatt_char print ble_call bind ret BleakClient client_address
     ble out trace app fst snd].

Ltac answer :=
  match goal with
  | |- context [ble_connect ?a ?s] =>
      destruct (ble_connect a s) as [[?k|] ?s] eqn:?Hconnect
  | |- context [ble_write ?a ?u ?p ?s] =>
      destruct (ble_write a u p s) as [[?k|] ?s] eqn:?Hwrite
  | |- context [stdout_write ?l ?o] =>
      destruct (stdout_write l o) as [[?k|] ?o] eqn:?Hprint
  | |- context [ble_disconnect ?a ?s] =>
      destruct (ble_disconnect a s) as [[?k|] ?s] eqn:?Hdisconnect
  end; cbv beta iota zeta delta [ble out trace app fst snd].

Ltac run_script := unfold_script; repeat answer.

(** The same for the whole process: the run, then the flush at shutdown. *)
Ltac answer_flush :=
  match goal with
  | |- context [stdout_flush ?o] =>
      destruct (stdout_flush o) as [[?k|] ?o] eqn:?Hflush
  end; simpl.

Ltac run_process :=
  unfold process_status, interpreter_exit; run_script; simpl;
  repeat answer_flush.

(** A platform answer that contradicts what is known of the platform. *)
Ltac impossible_answer :=
  match goal with
  | Hok : forall s, fst (?f s) = None, H : ?f ?s0 = (Some _, _) |- _ =>
      specialize (Hok s0); rewrite H in Hok; discriminate Hok
  | Hok : stdout_accepts, H : stdout_write ?l ?o0 = (Some _, _) |- _ =>
      specialize (Hok l o0); rewrite H in Hok; discriminate Hok
  end.

(** Every way of cutting a known trace as [pre ++ ev :: post]. *)
Ltac split_trace H :=
  match type of H with
  | [] = ?pre ++ _ :: _ => destruct pre; discriminate H
  | _ :: _ = ?pre ++ _ :: _ =>
      let x := fresh "x" in
      let pre' := fresh "pre" in
      destruct pre as [|x pre']; simpl in H;
      [ injection H as ? ?; subst
      | injection H as ? H; subst x; split_trace H ]
  end.

(** The traces a run of each script can leave, one per way the platform
    can answer. *)
Inductive main_trace : list Event -> Prop :=
| main_no_connection k :
    main_trace [EvConnect Raspberrypi.address (Some k)]
| main_write_failed k r :
    main_trace [EvConnect Raspberrypi.address None;
                EvWrite Raspberrypi.address Raspberrypi.CHAR_UUID [x01] (Some k);
                EvDisconnect Raspberrypi.address r]
| main_written rp r :
    main_trace [EvConnect Raspberrypi.address None;
                EvWrite Raspberrypi.address Raspberrypi.CHAR_UUID [x01] None;
                EvPrint "Wake signal sent to Penta server." rp;
                EvDisconnect Raspberrypi.address r].

Inductive wake_trace : list Event -> Prop :=
| wake_no_connection k :
    wake_trace [EvConnect WakePenta.DEVICE_ADDRESS (Some k)]
| wake_connected rw r :
    wake_trace [EvConnect WakePenta.DEVICE_ADDRESS None;
                EvWrite WakePenta.DEVICE_ADDRESS WakePenta.CHAR_UUID [x01] rw;
                EvDisconnect WakePenta.DEVICE_ADDRESS r].

Lemma main_trace_of_script {P : Platform} (s : BleSt) (o : OutSt) :
  main_trace (trace (snd (Raspberrypi.script s o))).
Proof. run_script; constructor. Qed.

Lemma wake_trace_of_script {P : Platform} (s : BleSt) (o : OutSt) :
  wake_trace (trace (snd (WakePenta.script s o))).
Proof. run_script; constructor. Qed.

(* ================================================================== *)
(** * The scoped connection *)

(** When the connect is refused, the body of the [async with] block does
    not run and nothing is disconnected, whatever the body is. *)
Lemma async_with_refused {P : Platform} {A} (a : string) (body : Client -> M A)
    (w : World) (k : exn_kind) (s' : BleSt) :
  ble_connect a (ble w) = (Some k, s') ->
  async_with (BleakClient a) body w
  = (Raise (Exn k None),
     mkWorld P s' (out w) (trace w ++ [EvConnect a (Some k)])).
Proof.
  intros H.
  cbv beta iota zeta delta
    [async_with aenter connect ble_call bind ret BleakClient client_address].
  rewrite H. reflexivity.
Qed.

(** When the connection is established, the block ends with the disconnect,
    however its body ended. *)
Lemma async_with_disconnects_last {P : Platform} {A} (a : string)
    (body : Client -> M A) (w : World) (s1 : BleSt) :
  ble_connect a (ble w) = (None, s1) ->
  exists r,
    trace (snd (async_with (BleakClient a) body w))
    = trace (snd (body (BleakClient a)
                    (mkWorld P s1 (out w) (trace w ++ [EvConnect a None]))))
      ++ [EvDisconnect a r].
Proof.
  intros H.
  cbv beta iota zeta delta
    [async_with aenter aexit connect disconnect ble_call bind ret
     BleakClient client_address].
  rewrite H. cbv beta iota zeta.
  destruct (body _ _) as [[x|e] w2].
  - destruct (ble_disconnect a (ble w2)) as [[k|] s3];
      eexists; reflexivity.
  - destruct (ble_disconnect a (ble w2)) as [[k|] s3];
      eexists; reflexivity.
Qed.

(** An exception of the body leaves the block: it is raised again after the
    disconnect, or rides as the context of the disconnect's own exception. *)
Lemma async_with_body_raises {P : Platform} {A} (a : string)
    (body : Client -> M A) (w w2 : World) (s1 : BleSt) (e : exn) :
  ble_connect a (ble w) = (None, s1) ->
  body (BleakClient a) (mkWorld P s1 (out w) (trace w ++ [EvConnect a None]))
  = (Raise e, w2) ->
  exists e', fst (async_with (BleakClient a) body w) = Raise e'
             /\ (e' = e \/ exists k, e' = Exn k (Some e)).
Proof.
  intros H Hbody.
  cbv beta iota zeta delta
    [async_with aenter aexit connect disconnect ble_call bind ret
     BleakClient client_address].
  rewrite H. cbv beta iota zeta.
  change (@Build_Client a) with (BleakClient a). rewrite Hbody.
  destruct (ble_disconnect a (ble w2)) as [[k|] s3]; simpl;
    eexists; split; try reflexivity; eauto.
Qed.

(* ================================================================== *)
(** * The shutdown of the interpreter *)

(** The shutdown can only turn the status of the run into 120. *)
Lemma process_status_run_or_120 {P : Platform} (sc : Script) (s : BleSt) (o : OutSt) :
  process_status sc s o = exit_status (fst (run sc s o))
  \/ process_status sc s o = 120%Z.
Proof.
  destruct sc; run_process; tauto.
Qed.

(** A process that exits with status 0 had status 0 when its script ended. *)
Lemma process_status_zero {P : Platform} (sc : Script) (s : BleSt) (o : OutSt) :
  process_status sc s o = 0%Z -> exit_status (fst (run sc s o)) = 0%Z.
Proof.
  destruct (process_status_run_or_120 sc s o) as [H|H]; rewrite H;
    [tauto | discriminate].
Qed.

(** wake_penta.py prints nothing, so its shutdown changes nothing. *)
Lemma process_status_wake {P : Platform} (s : BleSt) (o : OutSt) :
  process_status wake_penta_py s o = exit_status (fst (run wake_penta_py s o)).
Proof.
  run_process; reflexivity.
Qed.

(** Nor does the shutdown change the status when the flush cannot fail. *)
Lemma process_status_flushed {P : Platform} (sc : Script) (s : BleSt) (o : OutSt) :
  (forall o', fst (stdout_flush o') = None) ->
  process_status sc s o = exit_status (fst (run sc s o)).
Proof.
  intros Hflush.
  destruct sc; unfold process_status, interpreter_exit; run_script; simpl;
    try reflexivity;
    match goal with
    | |- context [stdout_flush ?o1] =>
        specialize (Hflush o1); destruct (stdout_flush o1) as [[k'|] o2];
        simpl in *; (reflexivity || discriminate Hflush)
    end.
Qed.

(** Concrete runs. *)
Example main_powered_off :
  @Raspberrypi.script powered_off tt tt
  = ({| exit_status := 1; traceback := Some (Exn ConnectionError None) |},
     @mkWorld powered_off tt tt
       [EvConnect "XX:XX:XX:XX:XX:XX" (Some ConnectionError)]).
Proof. reflexivity. Qed.

Example main_reachable :
  @Raspberrypi.script reachable 0 []
  = ({| exit_status := 0; traceback := None |},
     @mkWorld reachable 1 ["Wake signal sent to Penta server."]
       [EvConnect "XX:XX:XX:XX:XX:XX" None;
        EvWrite "XX:XX:XX:XX:XX:XX" "0000ff01-0000-1000-8000-00805f9b34fb" [x01] None;
        EvPrint "Wake signal sent to Penta server." None;
        EvDisconnect "XX:XX:XX:XX:XX:XX" None]).
Proof. reflexivity. Qed.

Example wake_reachable :
  @WakePenta.script reachable 0 []
  = ({| exit_status := 0; traceback := None |},
     @mkWorld reachable 1 []
       [EvConnect "XX:XX:XX:XX:XX:XX" None;
        EvWrite "XX:XX:XX:XX:XX:XX" "your-characteristic-uuid" [x01] None;
        EvDisconnect "XX:XX:XX:XX:XX:XX" None]).
Proof. reflexivity. Qed.

Example wake_link_drops :
  @WakePenta.script link_drops tt tt
  = ({| exit_status := 1;
        traceback := Some (Exn ConnectionError (Some (Exn WriteError None))) |},
     @mkWorld link_drops tt tt
       [EvConnect "XX:XX:XX:XX:XX:XX" None;
        EvWrite "XX:XX:XX:XX:XX:XX" "your-characteristic-uuid" [x01] (Some WriteError);
        EvDisconnect "XX:XX:XX:XX:XX:XX" (Some ConnectionError)]).
Proof. reflexivity. Qed.

(* ================================================================== *)
(** * The payload *)

(** C1: in every invocation of either script, whatever the platform
    answers, exactly one payload is handed to the BLE stack once the
    connection is made: the single byte 0x01, for the configured
    characteristic, in one write request.  No other payload and no second
    write is ever transmitted; when the connect is refused, nothing is. *)
Theorem C1_payload_is_the_single_byte_01
    (P : Platform) (sc : Script) (s : BleSt) (o : OutSt) :
  Forall (fun up => fst up = characteristic_of sc
                    /\ snd up = [x01]
                    /\ length (snd up) = 1%nat
                    /\ map Byte.to_N (snd up) = [1%N])
         (payloads (trace (snd (run sc s o))))
  /\ (connection_refused (address_of sc) (trace (snd (run sc s o)))
         /\ payloads (trace (snd (run sc s o))) = []
      \/ In (EvConnect (address_of sc) None) (trace (snd (run sc s o)))
         /\ payloads (trace (snd (run sc s o)))
            = [(characteristic_of sc, [x01])]
         /\ exists r,
              writes (trace (snd (run sc s o)))
              = [EvWrite (address_of sc) (characteristic_of sc) [x01] r]).
Proof.
  destruct sc; run_script; simpl;
    (split; [repeat constructor|]);
    solve [ left; split; [eexists; reflexivity | reflexivity]
          | right; split; [tauto | split; [reflexivity | eexists; reflexivity]] ].
Qed.

(* ================================================================== *)
(** * The connection handle *)

(** C2, as the claim states it, fails when the disconnect itself raises:
    the write fails, the release is tried and fails too, and the operation
    ends with the handle of the connection still held. *)
Lemma C2_handle_left_open_when_disconnect_raises :
  trace (snd (@run link_drops wake_penta_py tt tt))
  = [EvConnect "XX:XX:XX:XX:XX:XX" None;
     EvWrite "XX:XX:XX:XX:XX:XX" "your-characteristic-uuid" [x01] (Some WriteError);
     EvDisconnect "XX:XX:XX:XX:XX:XX" (Some ConnectionError)]
  /\ open_handles (trace (snd (@run link_drops wake_penta_py tt tt)))
     = ["XX:XX:XX:XX:XX:XX"]
  /\ open_handles (trace (snd (@run link_drops wake_penta_py tt tt))) <> [].
Proof.
  split; [reflexivity|]. split; [reflexivity|]. discriminate.
Qed.

(** C2 (amended): on every exit path of either script on which a
    connection was opened (write failed, confirmation failed, or success)
    the release is attempted: the disconnect of that connection is issued,
    once, as the last event of the run.  No handle is held at the end
    exactly when no disconnect raised; when the disconnect raises, the
    handle of the script's address stays held.  A refused connect acquires
    no handle. *)
Theorem C2_release_attempted_on_every_path
    (P : Platform) (sc : Script) (s : BleSt) (o : OutSt) :
  (forall a, In (EvConnect a None) (trace (snd (run sc s o))) ->
     exists r, last (trace (snd (run sc s o))) (EvConnect a None)
               = EvDisconnect a r)
  /\ (length (filter is_disconnect (trace (snd (run sc s o)))) <= 1)%nat
  /\ (open_handles (trace (snd (run sc s o))) = []
      <-> forall a k, ~ In (EvDisconnect a (Some k)) (trace (snd (run sc s o))))
  /\ (open_handles (trace (snd (run sc s o))) = []
      \/ open_handles (trace (snd (run sc s o))) = [address_of sc])
  /\ (connection_refused (address_of sc) (trace (snd (run sc s o))) ->
      open_handles (trace (snd (run sc s o))) = []).
Proof.
  destruct sc; run_script; simpl;
    (refine (conj _ (conj _ (conj _ (conj _ _))));
     [ intros a Hin; simpl in Hin;
       repeat (destruct Hin as [Hin|Hin]; try discriminate Hin);
       try contradiction; inversion Hin; subst; simpl; eauto
     | lia
     | split;
       [ intros H; try discriminate H; intros a k' Hin; simpl in Hin;
         repeat (destruct Hin as [Hin|Hin]; try discriminate Hin);
         contradiction
       | intros H; try reflexivity; exfalso;
         eapply H; simpl; eauto 6 ]
     | solve [ left; reflexivity | right; reflexivity ]
     | intros [k' H]; try discriminate H; reflexivity ]).
Qed.

Lemma C2_witness_reachable :
  In (EvConnect "XX:XX:XX:XX:XX:XX" None)
     (trace (snd (@run reachable raspberrypi_py 0%nat [])))
  /\ (exists r, last (trace (snd (@run reachable raspberrypi_py 0%nat [])))
                     (EvConnect "XX:XX:XX:XX:XX:XX" None)
                = EvDisconnect "XX:XX:XX:XX:XX:XX" r)
  /\ open_handles (trace (snd (@run reachable raspberrypi_py 0%nat []))) = [].
Proof.
  assert (Hin : In (EvConnect "XX:XX:XX:XX:XX:XX" None)
                   (trace (snd (@run reachable raspberrypi_py 0%nat [])))).
  { simpl. left. reflexivity. }
  split; [exact Hin|].
  pose proof (C2_release_attempted_on_every_path reachable raspberrypi_py 0%nat [])
    as (Hlast & _ & Hopen & _).
  split; [exact (Hlast _ Hin)|].
  apply Hopen. intros a k Hbad. simpl in Hbad.
  repeat (destruct Hbad as [Hbad|Hbad]; try discriminate Hbad).
  contradiction.
Defined.

(* ================================================================== *)
(** * The sequence of operations *)

(** C3, as the claim states it, fails when the peripheral is powered off:
    the invocation opens no connection and issues no write. *)
Lemma C3_no_linear_sequence_when_powered_off :
  trace (snd (@run powered_off wake_penta_py tt tt))
  = [EvConnect "XX:XX:XX:XX:XX:XX" (Some ConnectionError)]
  /\ length (writes (trace (snd (@run powered_off wake_penta_py tt tt)))) = 0%nat
  /\ ~ (exists a u p,
          linear_sequence a u p (trace (snd (@run powered_off wake_penta_py tt tt)))).
Proof.
  split; [reflexivity|]. split; [reflexivity|].
  intros (a & u & p & rw & rd & H). discriminate H.
Qed.

(** C3 (amended): every invocation attempts exactly one connection.  When
    it is refused nothing else happens; when it is established the BLE
    traffic is exactly connect, one write of 0x01 on that connection, then
    its disconnect.  There is never a second connection or a second write. *)
Theorem C3_connect_then_write_then_disconnect
    (P : Platform) (sc : Script) (s : BleSt) (o : OutSt) :
  (connection_refused (address_of sc) (trace (snd (run sc s o)))
   \/ linear_sequence (address_of sc) (characteristic_of sc) [x01]
        (trace (snd (run sc s o))))
  /\ length (connects (trace (snd (run sc s o)))) = 1%nat
  /\ (length (writes (trace (snd (run sc s o)))) <= 1)%nat.
Proof.
  destruct sc; run_script; simpl;
    (split; [|split; [reflexivity|lia]]);
    solve [ left; eexists; reflexivity
          | right; do 2 eexists; reflexivity ].
Qed.

(* ================================================================== *)
(** * A connection that cannot be established *)

(** C4: when the connect to the script's address raises an error, the
    operation fails with that very error, the process exits with a non-zero
    status, and no write is attempted: the refused connect is the only event
    of the run. *)
Theorem C4_no_write_without_connection
    (P : Platform) (sc : Script) (s : BleSt) (o : OutSt)
    (k : exn_kind) (s' : BleSt) :
  ble_connect (address_of sc) s = (Some k, s') ->
  traceback (fst (run sc s o)) = Some (Exn k None)
  /\ exit_status (fst (run sc s o)) <> 0%Z
  /\ writes (trace (snd (run sc s o))) = []
  /\ trace (snd (run sc s o)) = [EvConnect (address_of sc) (Some k)]
  /\ ble (snd (run sc s o)) = s'.
Proof.
  intros H. destruct sc; unfold address_of in *; unfold_script;
    rewrite H; simpl; repeat split; discriminate.
Qed.

Lemma C4_witness_powered_off :
  @ble_connect powered_off (address_of raspberrypi_py) tt
  = (Some ConnectionError, tt)
  /\ traceback (fst (@run powered_off raspberrypi_py tt tt))
     = Some (Exn ConnectionError None)
  /\ writes (trace (snd (@run powered_off raspberrypi_py tt tt))) = [].
Proof.
  split; [reflexivity|].
  pose proof (C4_no_write_without_connection powered_off raspberrypi_py
                tt tt ConnectionError tt eq_refl) as H.
  split; [apply H | apply H].
Defined.

(* ================================================================== *)
(** * Errors *)

(** C5, as the claim states it, fails in two places.  On a standard output
    that cannot be flushed, raspberrypi.py completes every step, no
    exception is raised, and the process still exits with status 120.  And
    when the disconnect that follows a failed write raises as well, the
    uncaught exception is the disconnect's; the write error is its
    context. *)
Lemma C5_status_120_with_every_step_completed :
  Forall (fun ev => event_result ev = None)
         (trace (snd (@run broken_pipe raspberrypi_py tt [])))
  /\ traceback (fst (@run broken_pipe raspberrypi_py tt [])) = None
  /\ @process_status broken_pipe raspberrypi_py tt [] = 120%Z
  /\ @process_status broken_pipe raspberrypi_py tt [] <> 0%Z
  /\ traceback (fst (@run link_drops wake_penta_py tt tt))
     = Some (Exn ConnectionError (Some (Exn WriteError None))).
Proof.
  split; [repeat constructor|].
  split; [reflexivity|]. split; [reflexivity|].
  split; [discriminate | reflexivity].
Qed.

(** C5 (amended): an error of the connect ends the run at once and is the
    uncaught exception; an error of the write is followed by the release of
    the connection only and is the uncaught exception too, or, when that
    release raises as well, the context of the release's exception.  Either
    way the process exits with a non-zero status.  No step is ever tried a
    second time.  An exception is left uncaught exactly when a step raised,
    and the exit status is 0 exactly when every step completed and the
    flush of the standard output at shutdown did not fail; wake_penta.py,
    which prints nothing, exits with 0 exactly when every step completed,
    and after a run in which every step completed the status is 0 or 120. *)
Theorem C5_errors_end_the_process
    (P : Platform) (sc : Script) (s : BleSt) (o : OutSt) :
  (forall a k, In (EvConnect a (Some k)) (trace (snd (run sc s o))) ->
     traceback (fst (run sc s o)) = Some (Exn k None)
     /\ process_status sc s o <> 0%Z
     /\ trace (snd (run sc s o)) = [EvConnect a (Some k)])
  /\ (forall a u p k, In (EvWrite a u p (Some k)) (trace (snd (run sc s o))) ->
       (exists e, traceback (fst (run sc s o)) = Some e /\ In k (chain e))
       /\ process_status sc s o <> 0%Z
       /\ exists r,
            trace (snd (run sc s o))
            = [EvConnect a None; EvWrite a u p (Some k); EvDisconnect a r]
            /\ (r = None -> traceback (fst (run sc s o)) = Some (Exn k None))
            /\ (forall k', r = Some k' ->
                  traceback (fst (run sc s o))
                  = Some (Exn k' (Some (Exn k None)))))
  /\ (length (connects (trace (snd (run sc s o)))) <= 1)%nat
  /\ (length (writes (trace (snd (run sc s o)))) <= 1)%nat
  /\ (traceback (fst (run sc s o)) = None
      <-> Forall (fun ev => event_result ev = None) (trace (snd (run sc s o))))
  /\ (process_status sc s o = 0%Z
      <-> Forall (fun ev => event_result ev = None) (trace (snd (run sc s o)))
          /\ (filter is_print (trace (snd (run sc s o))) <> [] ->
              fst (stdout_flush (out (snd (run sc s o)))) = None))
  /\ (sc = wake_penta_py ->
      (process_status sc s o = 0%Z
       <-> Forall (fun ev => event_result ev = None) (trace (snd (run sc s o)))))
  /\ (Forall (fun ev => event_result ev = None) (trace (snd (run sc s o))) ->
      process_status sc s o = 0%Z \/ process_status sc s o = 120%Z).
Proof.
  refine (conj _ (conj _ (conj _ (conj _ (conj _ (conj _ (conj _ _))))))).
  - destruct sc; run_process; intros a k' Hin;
      repeat (destruct Hin as [Hin|Hin]; try discriminate Hin);
      try contradiction; inversion Hin; subst; clear Hin;
      repeat split; discriminate.
  - destruct sc; run_process; intros a u p k' Hin;
      repeat (destruct Hin as [Hin|Hin]; try discriminate Hin);
      try contradiction; inversion Hin; subst; clear Hin;
      (split; [eexists; split; [reflexivity | simpl; tauto]|]);
      (split; [discriminate|]);
      eexists; (split; [reflexivity|]);
      (split; [intros Hr | intros k'' Hr]);
      solve [ reflexivity | discriminate Hr
            | injection Hr as <-; reflexivity ].
  - destruct sc; run_script; simpl; lia.
  - destruct sc; run_script; simpl; lia.
  - destruct sc; run_script; simpl; split; intros H;
      try reflexivity; try discriminate H; try (repeat constructor; fail);
      repeat match goal with
             | H : Forall _ (_ :: _) |- _ => inversion H; subst; clear H
             end;
      simpl in *; discriminate.
  - destruct sc; run_process;
      (split; [intros H; try discriminate H | intros [H Hf]]);
      try (split; [repeat constructor | intros; reflexivity]; fail);
      try (split; [repeat constructor | intros Hne; exfalso; apply Hne; reflexivity]; fail);
      try reflexivity;
      try (specialize (Hf ltac:(discriminate)); discriminate Hf);
      repeat match goal with
             | H : Forall _ (_ :: _) |- _ => inversion H; subst; clear H
             end;
      simpl in *; discriminate.
  - intros ->. run_process; split; intros H;
      try reflexivity; try discriminate H; try (repeat constructor; fail);
      repeat match goal with
             | H : Forall _ (_ :: _) |- _ => inversion H; subst; clear H
             end;
      simpl in *; discriminate.
  - destruct sc; run_process; intros H; try tauto;
      repeat match goal with
             | H : Forall _ (_ :: _) |- _ => inversion H; subst; clear H
             end;
      simpl in *; discriminate.
Qed.

Lemma C5_witness_link_drops :
  In (EvWrite "XX:XX:XX:XX:XX:XX" "your-characteristic-uuid" [x01] (Some WriteError))
     (trace (snd (@run link_drops wake_penta_py tt tt)))
  /\ (exists e, traceback (fst (@run link_drops wake_penta_py tt tt)) = Some e
                /\ In WriteError (chain e))
  /\ @process_status link_drops wake_penta_py tt tt <> 0%Z.
Proof.
  assert (Hin : In (EvWrite "XX:XX:XX:XX:XX:XX" "your-characteristic-uuid" [x01]
                      (Some WriteError))
                   (trace (snd (@run link_drops wake_penta_py tt tt)))).
  { simpl. right. left. reflexivity. }
  split; [exact Hin|].
  pose proof (C5_errors_end_the_process link_drops wake_penta_py tt tt)
    as (_ & Hwrite & _).
  destruct (Hwrite _ _ _ _ Hin) as (He & Hst & _).
  split; [exact He | exact Hst].
Defined.

(* ================================================================== *)
(** * The configured characteristic identifiers *)

Lemma all_hex_hex_or_hyphen (s : string) :
  all_hex s = true -> hex_or_hyphen s = true.
Proof.
  induction s as [|c s IH]; simpl; [reflexivity|].
  intros H. apply andb_true_iff in H as [Hc Hs].
  rewrite Hc, (IH Hs). reflexivity.
Qed.

Lemma uuid_chars_hex_or_hyphen (s : string) :
  forall i, uuid_chars i s = true -> hex_or_hyphen s = true.
Proof.
  induction s as [|c s IH]; simpl; [reflexivity|].
  intros i H. apply andb_true_iff in H as [Hc Hs].
  rewrite (IH _ Hs), andb_true_r.
  destruct (is_hyphen_position i); rewrite Hc; [apply orb_true_r | reflexivity].
Qed.

(** Any identifier that passes the syntax check consists of hexadecimal
    digits and hyphens. *)
Lemma valid_identifier_hex_or_hyphen (s : string) :
  valid_characteristic_identifier s = true -> hex_or_hyphen s = true.
Proof.
  unfold valid_characteristic_identifier, is_uuid128, is_short_uuid.
  intros H. apply orb_true_iff in H as [H|H];
    apply andb_true_iff in H as [_ H].
  - exact (uuid_chars_hex_or_hyphen s 0 H).
  - exact (all_hex_hex_or_hyphen s H).
Qed.

(** C6, as the claim states it, fails for wake_penta.py: its CHAR_UUID is
    neither a 128-bit UUID nor a short form; it is not even made of
    hexadecimal digits and hyphens. *)
Lemma C6_placeholder_is_no_uuid :
  valid_characteristic_identifier (characteristic_of wake_penta_py) = false
  /\ hex_or_hyphen (characteristic_of wake_penta_py) = false
  /\ ~ (valid_characteristic_identifier (characteristic_of raspberrypi_py) = true
        /\ valid_characteristic_identifier (characteristic_of wake_penta_py) = true).
Proof.
  split; [reflexivity|]. split; [reflexivity|].
  intros [_ H]. discriminate H.
Qed.

(** C6 (amended): the CHAR_UUID of raspberrypi.py is a syntactically valid
    128-bit UUID; the CHAR_UUID of wake_penta.py is the placeholder
    "your-characteristic-uuid", which the syntax check refuses. *)
Theorem C6_only_raspberrypi_has_a_uuid :
  is_uuid128 Raspberrypi.CHAR_UUID = true
  /\ valid_characteristic_identifier (characteristic_of raspberrypi_py) = true
  /\ WakePenta.CHAR_UUID = "your-characteristic-uuid"
  /\ valid_characteristic_identifier (characteristic_of wake_penta_py) = false.
Proof. repeat split. Qed.

(* ================================================================== *)
(** * The two scripts compared *)

(** C7: on a platform that answers alike for the constants of the two
    scripts, both runs show the same BLE traffic (connect, write of the same
    payload, disconnect, with the same answers) and leave the BLE stack in
    the same state; raspberrypi.py differs by its confirmation line only,
    and unless printing that line fails the two processes end alike. *)
Theorem C7_scripts_equivalent_up_to_constants
    (P : Platform) (s : BleSt) (o : OutSt) :
  same_on_both_constants ->
  ble_view (trace (snd (run raspberrypi_py s o)))
  = ble_view (trace (snd (run wake_penta_py s o)))
  /\ ble (snd (run raspberrypi_py s o)) = ble (snd (run wake_penta_py s o))
  /\ map snd (payloads (trace (snd (run raspberrypi_py s o))))
     = map snd (payloads (trace (snd (run wake_penta_py s o))))
  /\ (Forall (fun ev => is_print ev = true -> event_result ev = None)
             (trace (snd (run raspberrypi_py s o))) ->
      fst (run raspberrypi_py s o) = fst (run wake_penta_py s o)).
Proof.
  intros [Hc Hw Hd]. unfold_script.
  repeat (rewrite ?Hc, ?Hw, ?Hd; answer);
    simpl; repeat split; intros H;
    repeat match goal with
           | H : Forall _ (_ :: _) |- _ => inversion H; subst; clear H
           end;
    simpl in *; try reflexivity;
    match goal with
    | H : true = true -> Some _ = None |- _ => discriminate (H eq_refl)
    end.
Qed.

Lemma C7_witness_reachable :
  @same_on_both_constants reachable
  /\ ble_view (trace (snd (@run reachable raspberrypi_py 0%nat [])))
     = ble_view (trace (snd (@run reachable wake_penta_py 0%nat [])))
  /\ fst (@run reachable raspberrypi_py 0%nat [])
     = fst (@run reachable wake_penta_py 0%nat []).
Proof.
  assert (H : @same_on_both_constants reachable)
    by (constructor; intros; reflexivity).
  split; [exact H|].
  pose proof (C7_scripts_equivalent_up_to_constants reachable 0%nat [] H)
    as (Hview & _ & _ & Hexit).
  split; [exact Hview|].
  apply Hexit. simpl. repeat constructor; discriminate.
Defined.

(* ================================================================== *)
(** * Two invocations in succession *)

(** C8: against a peripheral that stays reachable, two invocations in
    succession each perform their own successful write of 0x01, with the
    same BLE traffic; nothing of the first process reaches the second, which
    starts from an empty trace on the platform as it was left.  When the
    standard output takes the confirmation both processes exit with status 0
    and the second run is event for event the first. *)
Theorem C8_second_invocation_like_the_first
    (P : Platform) (sc : Script) (s : BleSt) (o : OutSt) :
  reachable_peripheral sc ->
  writes (trace (snd (fst (run_twice sc s o))))
  = [EvWrite (address_of sc) (characteristic_of sc) [x01] None]
  /\ writes (trace (snd (snd (run_twice sc s o))))
     = [EvWrite (address_of sc) (characteristic_of sc) [x01] None]
  /\ ble_events (trace (snd (fst (run_twice sc s o))))
     = [EvConnect (address_of sc) None;
        EvWrite (address_of sc) (characteristic_of sc) [x01] None;
        EvDisconnect (address_of sc) None]
  /\ ble_events (trace (snd (snd (run_twice sc s o))))
     = ble_events (trace (snd (fst (run_twice sc s o))))
  /\ snd (run_twice sc s o)
     = run sc (ble (snd (run sc s o))) (out (snd (run sc s o)))
  /\ (stdout_accepts ->
      exit_status (fst (fst (run_twice sc s o))) = 0%Z
      /\ fst (snd (run_twice sc s o)) = fst (fst (run_twice sc s o))
      /\ trace (snd (snd (run_twice sc s o)))
         = trace (snd (fst (run_twice sc s o)))).
Proof.
  intros [Hc Hw Hd].
  destruct sc; unfold address_of, characteristic_of in *;
    (refine (conj _ (conj _ (conj _ (conj _ (conj _ _)))));
     [ .. | intros Hout; refine (conj _ (conj _ _)) ]);
    run_script; try impossible_answer; reflexivity.
Qed.

Lemma C8_witness_reachable :
  @reachable_peripheral reachable raspberrypi_py
  /\ writes (trace (snd (snd (@run_twice reachable raspberrypi_py 0%nat []))))
     = [EvWrite "XX:XX:XX:XX:XX:XX" "0000ff01-0000-1000-8000-00805f9b34fb"
          [x01] None]
  /\ ble (snd (snd (@run_twice reachable raspberrypi_py 0%nat []))) = 2%nat.
Proof.
  assert (H : @reachable_peripheral reachable raspberrypi_py)
    by (constructor; intros; reflexivity).
  split; [exact H|].
  pose proof (C8_second_invocation_like_the_first reachable raspberrypi_py
                0%nat [] H) as (_ & Hsecond & _).
  split; [exact Hsecond | reflexivity].
Defined.

(* ================================================================== *)
(** * What the scripts print *)

Lemma output_follows_write_main (r : option exn_kind) (r' : option exn_kind) :
  output_follows_write
    [EvConnect Raspberrypi.address None;
     EvWrite Raspberrypi.address Raspberrypi.CHAR_UUID [x01] None;
     EvPrint "Wake signal sent to Penta server." r;
     EvDisconnect Raspberrypi.address r'].
Proof.
  intros pre l rl post H.
  destruct pre as [|e1 [|e2 [|e3 pre]]]; simpl in H; try discriminate H.
  - inversion H; subst. do 3 eexists. right. left. reflexivity.
  - exfalso. inversion H as [[H1 H2 H3 Hrest]].
    destruct pre as [|e4 pre]; simpl in Hrest; [discriminate Hrest|].
    inversion Hrest as [[H4 Hnil]]. destruct pre; discriminate Hnil.
Qed.

Lemma output_follows_write_no_print (tr : list Event) :
  filter is_print tr = [] -> output_follows_write tr.
Proof.
  intros Hnone pre l rl post ->.
  rewrite filter_app in Hnone. simpl in Hnone.
  apply app_eq_nil in Hnone as [_ Hnone]. discriminate Hnone.
Qed.

(** C10: when raspberrypi.py succeeds it has printed exactly one line,
    "Wake signal sent to Penta server.", after the write completed and
    before the disconnect; wake_penta.py never prints anything; and in
    neither script is a line printed unless a write has completed before. *)
Theorem C10_confirmation_only_after_the_write
    (P : Platform) (s : BleSt) (o : OutSt) :
  (exit_status (fst (run raspberrypi_py s o)) = 0%Z ->
     stdout_lines (trace (snd (run raspberrypi_py s o)))
     = ["Wake signal sent to Penta server."]
     /\ trace (snd (run raspberrypi_py s o))
        = [EvConnect Raspberrypi.address None;
           EvWrite Raspberrypi.address Raspberrypi.CHAR_UUID [x01] None;
           EvPrint "Wake signal sent to Penta server." None;
           EvDisconnect Raspberrypi.address None])
  /\ stdout_lines (trace (snd (run wake_penta_py s o))) = []
  /\ filter is_print (trace (snd (run wake_penta_py s o))) = []
  /\ (forall sc, output_follows_write (trace (snd (run sc s o)))).
Proof.
  split; [|split; [|split]].
  - run_script; simpl; intros H; try discriminate H; split; reflexivity.
  - run_script; reflexivity.
  - run_script; reflexivity.
  - intros [|]; run_script;
      solve [ apply output_follows_write_main
            | apply output_follows_write_no_print; reflexivity ].
Qed.

Lemma C10_witness_reachable :
  exit_status (fst (@run reachable raspberrypi_py 0%nat [])) = 0%Z
  /\ stdout_lines (trace (snd (@run reachable raspberrypi_py 0%nat [])))
     = ["Wake signal sent to Penta server."]
  /\ out (snd (@run reachable raspberrypi_py 0%nat []))
     = ["Wake signal sent to Penta server."].
Proof.
  split; [reflexivity|].
  pose proof (C10_confirmation_only_after_the_write reachable 0%nat [])
    as (Hmain & _).
  split; [apply (Hmain eq_refl) | reflexivity].
Defined.

(* ================================================================== *)
(** * Errors, exit status and delivery *)

(** The interpreter reports exactly the errors that were raised during the
    run, newest first: connect, write, print and disconnect errors alike,
    none is swallowed and none is made up. *)
Theorem reported_errors_are_the_raised_ones
    (P : Platform) (sc : Script) (s : BleSt) (o : OutSt) :
  reported (fst (run sc s o)) = rev (errors (trace (snd (run sc s o)))).
Proof.
  destruct sc; run_script; reflexivity.
Qed.

(** After a step that raised, the script does nothing more, except for the
    disconnect that closes an open connection: a failed connect or
    disconnect is the last event, a failed write or print is followed by the
    disconnect and nothing else. *)
Theorem only_the_release_follows_an_error
    (P : Platform) (sc : Script) (s : BleSt) (o : OutSt)
    (pre post : list Event) (ev : Event) :
  trace (snd (run sc s o)) = pre ++ ev :: post ->
  event_result ev <> None ->
  ((is_connect ev || is_disconnect ev) = true /\ post = [])
  \/ ((is_write ev || is_print ev) = true
      /\ exists r, post = [EvDisconnect (address_of sc) r]).
Proof.
  intros H Hev. destruct sc; unfold run in H.
  - pose proof (main_trace_of_script s o) as Ht. rewrite H in Ht.
    inversion Ht as [k Hk | k r Hk | rp r Hk]; split_trace Hk;
      simpl in Hev; try (exfalso; apply Hev; reflexivity);
      solve [ left; split; reflexivity
            | right; split; [reflexivity | eexists; reflexivity] ].
  - pose proof (wake_trace_of_script s o) as Ht. rewrite H in Ht.
    inversion Ht as [k Hk | rw r Hk]; split_trace Hk;
      simpl in Hev; try (exfalso; apply Hev; reflexivity);
      solve [ left; split; reflexivity
            | right; split; [reflexivity | eexists; reflexivity] ].
Qed.

Lemma only_the_release_follows_an_error_witness :
  trace (snd (@run (scripted None None None (Some OSError)) raspberrypi_py tt tt))
  = [EvConnect "XX:XX:XX:XX:XX:XX" None;
     EvWrite "XX:XX:XX:XX:XX:XX" "0000ff01-0000-1000-8000-00805f9b34fb" [x01] None]
    ++ EvPrint "Wake signal sent to Penta server." (Some OSError)
    :: [EvDisconnect "XX:XX:XX:XX:XX:XX" None]
  /\ exists r, [EvDisconnect "XX:XX:XX:XX:XX:XX" None]
               = [EvDisconnect (address_of raspberrypi_py) r].
Proof.
  split; [reflexivity|].
  destruct (only_the_release_follows_an_error
              (scripted None None None (Some OSError)) raspberrypi_py tt tt
              [EvConnect "XX:XX:XX:XX:XX:XX" None;
               EvWrite "XX:XX:XX:XX:XX:XX"
                 "0000ff01-0000-1000-8000-00805f9b34fb" [x01] None]
              [EvDisconnect "XX:XX:XX:XX:XX:XX" None]
              (EvPrint "Wake signal sent to Penta server." (Some OSError))
              eq_refl ltac:(discriminate))
    as [[Hkind _] | [_ Hpost]].
  - discriminate Hkind.
  - exact Hpost.
Defined.

(** Exit status 0 means the wake byte was delivered: the run then connected,
    wrote 0x01 to the configured characteristic and disconnected, each step
    completing. *)
Theorem exit_zero_means_delivered
    (P : Platform) (sc : Script) (s : BleSt) (o : OutSt) :
  exit_status (fst (run sc s o)) = 0%Z ->
  ble_events (trace (snd (run sc s o))) = delivered_sequence sc
  /\ In (EvWrite (address_of sc) (characteristic_of sc) [x01] None)
        (trace (snd (run sc s o))).
Proof.
  destruct sc; run_script; simpl; intros H; try discriminate H;
    (split; [reflexivity | simpl; tauto]).
Qed.

Lemma exit_zero_means_delivered_witness :
  exit_status (fst (@run reachable wake_penta_py 0%nat [])) = 0%Z
  /\ ble_events (trace (snd (@run reachable wake_penta_py 0%nat [])))
     = delivered_sequence wake_penta_py.
Proof.
  split; [reflexivity|].
  apply (exit_zero_means_delivered reachable wake_penta_py 0%nat [] eq_refl).
Defined.

(** The converse fails.  When the write completed and the process
    nevertheless exits with a non-zero status, what failed came after the
    write: the disconnect raised, or in raspberrypi.py the confirmation
    print raised, or in raspberrypi.py the line was printed and the flush of
    the standard output at shutdown failed, which gives status 120.  A
    non-zero status therefore does not tell that the byte was not sent. *)
Theorem delivered_yet_failed
    (P : Platform) (sc : Script) (s : BleSt) (o : OutSt)
    (a u : string) (p : list byte) :
  In (EvWrite a u p None) (trace (snd (run sc s o))) ->
  process_status sc s o <> 0%Z ->
  (exists k, In (EvDisconnect (address_of sc) (Some k)) (trace (snd (run sc s o))))
  \/ (sc = raspberrypi_py
      /\ exists k, In (EvPrint "Wake signal sent to Penta server." (Some k))
                     (trace (snd (run sc s o))))
  \/ (sc = raspberrypi_py
      /\ In (EvPrint "Wake signal sent to Penta server." None)
            (trace (snd (run sc s o)))
      /\ (exists k, fst (stdout_flush (out (snd (run sc s o)))) = Some k)
      /\ process_status sc s o = 120%Z).
Proof.
  destruct sc; run_process;
    intros Hin Hst;
    repeat (destruct Hin as [Hin|Hin]; try discriminate Hin);
    try contradiction; try (exfalso; apply Hst; reflexivity);
    solve [ left; eexists; tauto
          | right; left; split; [reflexivity | eexists; tauto]
          | right; right; split; [reflexivity|];
            split; [tauto|]; split; [eexists; reflexivity | reflexivity] ].
Qed.

Lemma delivered_yet_failed_witness :
  In (EvWrite "XX:XX:XX:XX:XX:XX" "0000ff01-0000-1000-8000-00805f9b34fb" [x01] None)
     (trace (snd (@run broken_pipe raspberrypi_py tt [])))
  /\ @process_status broken_pipe raspberrypi_py tt [] = 120%Z
  /\ exists k, fst (@stdout_flush broken_pipe
                      (out (snd (@run broken_pipe raspberrypi_py tt []))))
               = Some k.
Proof.
  assert (Hin : In (EvWrite "XX:XX:XX:XX:XX:XX"
                      "0000ff01-0000-1000-8000-00805f9b34fb" [x01] None)
                   (trace (snd (@run broken_pipe raspberrypi_py tt [])))).
  { simpl. right. left. reflexivity. }
  split; [exact Hin|]. split; [reflexivity|].
  destruct (delivered_yet_failed broken_pipe raspberrypi_py tt [] _ _ _ Hin
              ltac:(discriminate))
    as [[k Hd] | [[_ [k Hp]] | (_ & _ & Hflush & _)]].
  - exfalso. simpl in Hd.
    repeat (destruct Hd as [Hd|Hd]; try discriminate Hd). contradiction.
  - exfalso. simpl in Hp.
    repeat (destruct Hp as [Hp|Hp]; try discriminate Hp). contradiction.
  - exact Hflush.
Defined.

(* ================================================================== *)
(** * The standard output *)

(** wake_penta.py never touches the standard output.  raspberrypi.py
    touches it at most once, with the confirmation line, and only when the
    write has completed; otherwise it leaves it as it found it. *)
Theorem stdout_untouched_without_a_write
    (P : Platform) (s : BleSt) (o : OutSt) :
  out (snd (run wake_penta_py s o)) = o
  /\ (length (filter is_print (trace (snd (run raspberrypi_py s o)))) <= 1)%nat
  /\ (out (snd (run raspberrypi_py s o)) = o
      /\ filter is_print (trace (snd (run raspberrypi_py s o))) = []
      \/ In (EvWrite Raspberrypi.address Raspberrypi.CHAR_UUID [x01] None)
            (trace (snd (run raspberrypi_py s o)))
         /\ out (snd (run raspberrypi_py s o))
            = snd (stdout_write "Wake signal sent to Penta server." o)).
Proof.
  split; [|split].
  - run_script; reflexivity.
  - run_script; simpl; lia.
  - unfold_script.
    destruct (ble_connect Raspberrypi.address s) as [[k|] s1];
      cbv beta iota zeta delta [ble out trace app fst snd];
      [left; split; reflexivity|].
    destruct (ble_write Raspberrypi.address Raspberrypi.CHAR_UUID [x01] s1)
      as [[k|] s2];
      cbv beta iota zeta delta [ble out trace app fst snd].
    + destruct (ble_disconnect Raspberrypi.address s2) as [[k'|] s3];
        left; split; reflexivity.
    + destruct (stdout_write "Wake signal sent to Penta server." o)
        as [[k|] o1];
        cbv beta iota zeta delta [ble out trace app fst snd];
        destruct (ble_disconnect Raspberrypi.address s2) as [[k'|] s3];
        right; (split; [simpl; tauto | reflexivity]).
Qed.

(* ================================================================== *)
(** * The runs of each script, exactly *)

(** raspberrypi.py has three kinds of runs and no other: the connect is
    refused; the connection is made, the write fails and the connection is
    closed; the connection is made, the byte is written, the confirmation is
    printed and the connection is closed.  Each of them is the run on some
    platform. *)
Theorem main_runs_exactly (tr : list Event) :
  main_trace tr
  <-> exists (P : Platform) (s : BleSt) (o : OutSt),
        trace (snd (Raspberrypi.script s o)) = tr.
Proof.
  split.
  - intros [k | k r | rp r].
    + exists (scripted (Some k) None None None), tt, tt. reflexivity.
    + exists (scripted None (Some k) r None), tt, tt.
      destruct r; reflexivity.
    + exists (scripted None None r rp), tt, tt.
      destruct r, rp; reflexivity.
  - intros (P & s & o & <-). apply main_trace_of_script.
Qed.

(** wake_penta.py has two kinds of runs and no other: the connect is
    refused; the connection is made, the write is tried and the connection
    is closed.  Each of them is the run on some platform. *)
Theorem wake_runs_exactly (tr : list Event) :
  wake_trace tr
  <-> exists (P : Platform) (s : BleSt) (o : OutSt),
        trace (snd (WakePenta.script s o)) = tr.
Proof.
  split.
  - intros [k | rw r].
    + exists (scripted (Some k) None None None), tt, tt. reflexivity.
    + exists (scripted None rw r None), tt, tt.
      destruct rw, r; reflexivity.
  - intros (P & s & o & <-). apply wake_trace_of_script.
Qed.

(* ================================================================== *)
(** * Use of the connection *)

(** The connect is the first thing a script does, and everything after it
    (the write, the print, the disconnect) happens while the connection to
    the script's address, and no other, is open: nothing is written before
    the connection is made or after it is closed, and no connection is made
    twice. *)
Theorem events_only_on_the_open_connection
    (P : Platform) (sc : Script) (s : BleSt) (o : OutSt)
    (pre post : list Event) (ev : Event) :
  trace (snd (run sc s o)) = pre ++ ev :: post ->
  (is_connect ev = true /\ pre = [])
  \/ (is_connect ev = false /\ open_handles pre = [address_of sc]).
Proof.
  intros H. destruct sc; unfold run in H.
  - pose proof (main_trace_of_script s o) as Ht. rewrite H in Ht.
    inversion Ht as [k Hk | k r Hk | rp r Hk]; split_trace Hk;
      solve [ left; split; reflexivity | right; split; reflexivity ].
  - pose proof (wake_trace_of_script s o) as Ht. rewrite H in Ht.
    inversion Ht as [k Hk | rw r Hk]; split_trace Hk;
      solve [ left; split; reflexivity | right; split; reflexivity ].
Qed.

Lemma events_only_on_the_open_connection_witness :
  trace (snd (@run reachable wake_penta_py 0%nat []))
  = [EvConnect "XX:XX:XX:XX:XX:XX" None]
    ++ EvWrite "XX:XX:XX:XX:XX:XX" "your-characteristic-uuid" [x01] None
    :: [EvDisconnect "XX:XX:XX:XX:XX:XX" None]
  /\ open_handles [EvConnect "XX:XX:XX:XX:XX:XX" None]
     = [address_of wake_penta_py].
Proof.
  split; [reflexivity|].
  destruct (events_only_on_the_open_connection reachable wake_penta_py 0%nat []
              [EvConnect "XX:XX:XX:XX:XX:XX" None]
              [EvDisconnect "XX:XX:XX:XX:XX:XX" None]
              (EvWrite "XX:XX:XX:XX:XX:XX" "your-characteristic-uuid" [x01] None)
              eq_refl)
    as [[Hkind _] | [_ Hopen]].
  - discriminate Hkind.
  - exact Hopen.
Defined.

(* ================================================================== *)
(** * Any number of invocations *)




(* ================================================================== *)
(** * What the comparison of the scripts needs *)

(** The two scripts are configured with the same address, so they can only
    be told apart through the characteristic.  On a platform that answers a
    write of 0x01 alike for the two configured characteristics, both runs
    show the same BLE traffic and leave the BLE stack in the same state, and
    whenever raspberrypi.py exits with status 0 so does wake_penta.py. *)
Theorem same_characteristic_answer_suffices
    (P : Platform) (s : BleSt) (o : OutSt) :
  (forall s',
     ble_write Raspberrypi.address Raspberrypi.CHAR_UUID [x01] s'
     = ble_write WakePenta.DEVICE_ADDRESS WakePenta.CHAR_UUID [x01] s') ->
  ble_view (trace (snd (run raspberrypi_py s o)))
  = ble_view (trace (snd (run wake_penta_py s o)))
  /\ ble (snd (run raspberrypi_py s o)) = ble (snd (run wake_penta_py s o))
  /\ (exit_status (fst (run raspberrypi_py s o)) = 0%Z ->
      exit_status (fst (run wake_penta_py s o)) = 0%Z).
Proof.
  intros Hw. unfold_script.
  change WakePenta.DEVICE_ADDRESS with Raspberrypi.address in *.
  repeat (rewrite ?Hw; answer);
    simpl; repeat split; intros H; (reflexivity || discriminate H).
Qed.

Lemma same_characteristic_answer_suffices_witness :
  (forall s',
     @ble_write reachable Raspberrypi.address Raspberrypi.CHAR_UUID [x01] s'
     = @ble_write reachable WakePenta.DEVICE_ADDRESS WakePenta.CHAR_UUID [x01] s')
  /\ ble (snd (@run reachable raspberrypi_py 0%nat []))
     = ble (snd (@run reachable wake_penta_py 0%nat [])).
Proof.
  assert (H : forall s',
     @ble_write reachable Raspberrypi.address Raspberrypi.CHAR_UUID [x01] s'
     = @ble_write reachable WakePenta.DEVICE_ADDRESS WakePenta.CHAR_UUID [x01] s')
    by (intros; reflexivity).
  split; [exact H|].
  apply (same_characteristic_answer_suffices reachable 0%nat [] H).
Defined.
